(** * DoubleKeyTable

    A shallow embedding of [double_key_table.py]: the two-level hash table
    keyed by a pair of strings.  Python objects become records, a method
    that can raise returns a [result], a method that assigns to [self]
    returns the new object next to its outcome, and the [while True] loop of
    [_linear_probe] is iterated a bounded number of times, [None] meaning
    that the loop is still running. *)

From Stdlib Require Import ZArith Lia QArith Ascii String.
From stdpp Require Import base list strings.

Local Open Scope Z_scope.

(** ** Exceptions and outcomes *)

(** The exceptions that the methods of the class and the objects they use
    can raise.  [KeyError] keeps its argument: [_linear_probe] raises it
    with the key pair, [__getitem__] without any. *)
Inductive exn : Type :=
| KeyError (args : option (string * string))
| FullError
| IndexError
| TypeError
| AttributeError
| ZeroDivisionError
| NotImplementedError.

Inductive result (A : Type) : Type :=
| Ok (a : A)
| Raise (e : exn).

Arguments Ok {A} a.
Arguments Raise {A} e.

Definition bind {A B : Type} (c : result A) (k : A -> result B) : result B :=
  match c with
  | Ok a => k a
  | Raise e => Raise e
  end.

Notation "x <- c ;; k" := (bind c (fun x => k))
  (at level 100, c at next level, right associativity).

(** [for i in l: s = body(s, i)], stopping at the first exception. *)
Fixpoint for_each {S : Type} (body : S -> nat -> result S) (s : S)
    (l : list nat) : result S :=
  match l with
  | [] => Ok s
  | i :: l' => s' <- body s i ;; for_each body s' l'
  end.

(** Subscript of a Python list by an index that is not negative. *)
Definition list_getitem (l : list Z) (i : nat) : result Z :=
  match l !! i with
  | Some x => Ok x
  | None => Raise IndexError
  end.

(** ** The collaborators: ArrayR and LinearProbeTable *)

Module ArrayR.

(** Modelled from the spec: the class [ArrayR] of
    [data_structures.referential_array] is imported by the source and is
    not part of it.  The spec describes it as fixed-size, index-addressable
    storage with no dynamic resizing of its own: a sequence of slots, each
    holding [None] or an object. *)
Definition t (A : Type) : Type := list (option A).

(** Modelled from the spec: [ArrayR(length)], the constructor of the
    missing array class.  All slots start as [None]; a length that is not
    positive leaves no slot at all. *)
Definition new {A : Type} (length : Z) : t A :=
  replicate (Z.to_nat length) None.

(** Modelled from the spec: [len(array)] of the missing array class, the
    fixed number of slots. *)
Definition len {A : Type} (a : t A) : Z := Z.of_nat (length a).

(** Modelled from the spec: [array[index]] of the missing array class.
    The storage is fixed-size, so an index outside it is an error. *)
Definition getitem {A : Type} (a : t A) (index : Z) : result (option A) :=
  if (0 <=? index) && (index <? len a) then
    match a !! Z.to_nat index with
    | Some x => Ok x
    | None => Raise IndexError
    end
  else Raise IndexError.

(** Modelled from the spec: [array[index] = value] of the missing array
    class.  The storage does not grow: an index outside it is an error. *)
Definition setitem {A : Type} (a : t A) (index : Z) (value : option A)
    : result (t A) :=
  if (0 <=? index) && (index <? len a) then
    Ok (<[Z.to_nat index := value]> a)
  else Raise IndexError.

End ArrayR.

(** What the source stores in a slot of an inner table: [_linear_probe]
    compares [entry[0]] with [key1] and [entry[1][0]] with [key2]. *)
Definition entry (V : Type) : Type := (string * (string * V))%type.

Module LinearProbeTable.

(** Modelled from the spec: the class [LinearProbeTable] of
    [data_structures.hash_table] is imported by the source and is not part
    of it.  The spec gives a table a fixed-length array of slots, each
    empty or occupied, and the capacity that goes with it.  [len] is what
    [len(sub_table)] evaluates to; it is kept as a field of its own, so
    that nothing depends on whether it is the capacity the probe wraps at
    (spec 4.1) or the live-entry count (spec 3). *)
Record t (V : Type) : Type := mk {
  array : list (option (entry V));
  len : Z
}.

Arguments mk {V} array len.
Arguments array {V} _.
Arguments len {V} _.

(** Modelled from the spec: [sub_table.table_size] of the missing table
    class, the current capacity. *)
Definition table_size {V : Type} (s : t V) : Z := Z.of_nat (length (array s)).

(** Modelled from the spec: [sub_table[sub_index]] of the missing table
    class, as [_linear_probe] uses it: the content of one slot. *)
Definition slot {V : Type} (s : t V) (sub_index : Z)
    : result (option (entry V)) :=
  ArrayR.getitem (array s) sub_index.

Definition holds_key2 {V : Type} (key2 : string) (e : entry V) : bool :=
  String.eqb (fst (snd e)) key2.

(** Modelled from the spec: [key2 in sub_table] of the missing table
    class, as [__getitem__] uses it.  The inner table maps the second key
    to a value: the key is in it when an occupied slot holds it. *)
Definition contains {V : Type} (s : t V) (key2 : string) : bool :=
  existsb (holds_key2 key2) (omap id (array s)).

(** Modelled from the spec: [sub_table[key2]] of the missing table class,
    as [__getitem__] uses it: the value stored with the second key. *)
Definition getitem {V : Type} (s : t V) (key2 : string) : result V :=
  match List.find (holds_key2 key2) (omap id (array s)) with
  | Some e => Ok (snd (snd e))
  | None => Raise (KeyError None)
  end.

(** Modelled from the spec: [LinearProbeTable[size, ...]()], the
    constructor of the missing table class, with the size the source
    hands it: a fresh table of that capacity with every slot empty. *)
Definition new {V : Type} (size : Z) : t V :=
  let slots := replicate (Z.to_nat size) None in
  mk slots (Z.of_nat (length slots)).

(** The live entries of a table: its occupied slots. *)
Definition live_count {V : Type} (s : t V) : Z :=
  Z.of_nat (length (omap id (array s))).

End LinearProbeTable.

(** ** The class *)

(** The attributes [__init__] assigns.  [load_factor] is only ever the
    literal [0.0].  The [hash] attribute that line 44 sets on every inner
    table is a closure that nothing in the class calls; it is left out. *)
Record DoubleKeyTable (V : Type) : Type := mkDoubleKeyTable {
  TABLE_SIZES : list Z;
  size_index : nat;
  table : ArrayR.t (LinearProbeTable.t V);
  num_entries : Z;
  load_factor : Q
}.

Arguments mkDoubleKeyTable {V} _ _ _ _ _.
Arguments TABLE_SIZES {V} _.
Arguments size_index {V} _.
Arguments table {V} _.
Arguments num_entries {V} _.
Arguments load_factor {V} _.

(** The class attribute [TABLE_SIZES] (line 26). *)
Definition TABLE_SIZES_default : list Z :=
  [5; 13; 29; 53; 97; 193; 389; 769; 1543; 3079; 6151; 12289; 24593; 49157;
   98317; 196613; 393241; 786433; 1572869].

Definition HASH_BASE : Z := 31.

(** One iteration of the loop of [__init__] (lines 39-44). *)
Definition init_body {V : Type} (sizes : list Z)
    (internal_sizes : option (list Z))
    (tbl : ArrayR.t (LinearProbeTable.t V)) (i : nat)
    : result (ArrayR.t (LinearProbeTable.t V)) :=
  sub_table_size <-
    match internal_sizes with
    | Some l => list_getitem l i
    | None => list_getitem sizes i
    end ;;
  ArrayR.setitem tbl (Z.of_nat i)
    (Some (LinearProbeTable.new sub_table_size)).

(** [DoubleKeyTable(sizes, internal_sizes)] (lines 30-46). *)
Definition __init__ {V : Type} (sizes internal_sizes : option (list Z))
    : result (DoubleKeyTable V) :=
  let TABLE_SIZES := default TABLE_SIZES_default sizes in
  let size_index := 0%nat in
  capacity <- list_getitem TABLE_SIZES size_index ;;
  tbl <- for_each (init_body TABLE_SIZES internal_sizes)
           (ArrayR.new capacity) (seq 0 (length TABLE_SIZES)) ;;
  Ok (mkDoubleKeyTable TABLE_SIZES size_index tbl 0 0%Q).

(** ** Hashing *)

(** [ord(char)]: keys are strings of 8-bit characters here. *)
Definition ord (char : ascii) : Z := Z.of_nat (nat_of_ascii char).

(** What the modulus of the hash evaluates to.  In an inner table
    [table_size] is an integer.  In the class itself line 203 declares
    [table_size] with a plain [def]: the attribute [self.table_size] is the
    bound method, not a number. *)
Inductive pyobj : Type :=
| PyInt (n : Z)
| PyMethod.

(** [x % y] for an integer [x]: Python's remainder has the sign of the
    divisor, as [Z.modulo] has. *)
Definition py_mod (x : Z) (y : pyobj) : result Z :=
  match y with
  | PyInt n => if n =? 0 then Raise ZeroDivisionError else Ok (x mod n)
  | PyMethod => Raise TypeError
  end.

(** [y - k] for an integer [k]. *)
Definition py_sub (y : pyobj) (k : Z) : result pyobj :=
  match y with
  | PyInt n => Ok (PyInt (n - k))
  | PyMethod => Raise TypeError
  end.

(** The loop shared by [hash1] (lines 57-59) and [hash2] (lines 71-73).
    [table_size] is the attribute access, evaluated where the loop body
    reaches it. *)
Fixpoint hash_loop (table_size : result pyobj) (key : string) (value a : Z)
    : result Z :=
  match key with
  | EmptyString => Ok value
  | String char key' =>
      m <- table_size ;;
      value' <- py_mod (ord char + a * value) m ;;
      m' <- table_size ;;
      m1 <- py_sub m' 1 ;;
      a' <- py_mod (a * HASH_BASE) m1 ;;
      hash_loop table_size key' value' a'
  end.

(** [self.table_size] on a [DoubleKeyTable]. *)
Definition self_table_size {V : Type} (self : DoubleKeyTable V) : result pyobj :=
  Ok PyMethod.

(** [sub_table.table_size], where [sub_table] may be [None]. *)
Definition sub_table_size {V : Type} (sub_table : option (LinearProbeTable.t V))
    : result pyobj :=
  match sub_table with
  | Some s => Ok (PyInt (LinearProbeTable.table_size s))
  | None => Raise AttributeError
  end.

(** [hash1] (lines 48-60). *)
Definition hash1 {V : Type} (self : DoubleKeyTable V) (key : string) : result Z :=
  hash_loop (self_table_size self) key 0 31415.

(** [hash2] (lines 62-74). *)
Definition hash2 {V : Type} (self : DoubleKeyTable V) (key : string)
    (sub_table : option (LinearProbeTable.t V)) : result Z :=
  hash_loop (sub_table_size sub_table) key 0 31415.

(** The hash as the spec words it (4.1): accumulate
    [value = (char_code + a*value) mod capacity] and update the multiplier
    [a = (a * BASE) mod (capacity - 1)] after each character. *)
Fixpoint spec_hash_from (capacity : Z) (key : string) (value a : Z) : Z :=
  match key with
  | EmptyString => value
  | String char key' =>
      spec_hash_from capacity key'
        ((ord char + a * value) mod capacity)
        ((a * HASH_BASE) mod (capacity - 1))
  end.

Definition spec_hash (capacity : Z) (key : string) : Z :=
  spec_hash_from capacity key 0 31415.

(** ** Probing *)

(** [sub_table[sub_index]], where [sub_table] may be [None]. *)
Definition sub_table_slot {V : Type} (sub_table : option (LinearProbeTable.t V))
    (sub_index : Z) : result (option (entry V)) :=
  match sub_table with
  | Some s => LinearProbeTable.slot s sub_index
  | None => Raise TypeError
  end.

(** [len(sub_table)], where [sub_table] may be [None]. *)
Definition sub_table_len {V : Type} (sub_table : option (LinearProbeTable.t V))
    : result pyobj :=
  match sub_table with
  | Some s => Ok (PyInt (LinearProbeTable.len s))
  | None => Raise TypeError
  end.

(** [x is None]. *)
Definition is_None {A : Type} (x : option A) : bool :=
  match x with
  | None => true
  | Some _ => false
  end.

(** The test of line 91. *)
Definition entry_matches {V : Type} (e : entry V) (key1 key2 : string) : bool :=
  String.eqb (fst e) key1 && String.eqb (fst (snd e)) key2.

(** How one pass through the body of the loop ends. *)
Inductive iteration : Type :=
| Return (position : Z * Z)
| Throw (e : exn)
| Continue (sub_index : Z).

Definition run (c : result iteration) : iteration :=
  match c with
  | Ok it => it
  | Raise e => Throw e
  end.

(** The body of the [while True] loop (lines 86-95).  [sub_index] is the
    value the variable has when the body is entered; line 86 assigns it
    anew before anything reads it. *)
Definition probe_body {V : Type} (self : DoubleKeyTable V) (key1 key2 : string)
    (is_insert : bool) (top_index : Z)
    (sub_table : option (LinearProbeTable.t V)) (sub_index : option Z)
    : iteration :=
  run (
    sub_index <- hash2 self key2 sub_table ;;
    lookup_miss <-
      (if negb is_insert then
         s <- sub_table_slot sub_table sub_index ;;
         Ok (is_None s)
       else Ok false) ;;
    if (lookup_miss : bool) then Raise (KeyError (Some (key1, key2)))
    else
      s <- sub_table_slot sub_table sub_index ;;
      match s with
      | None => Ok (Return (top_index, sub_index))
      | Some e =>
          if entry_matches e key1 key2 then Ok (Return (top_index, sub_index))
          else
            n <- sub_table_len sub_table ;;
            sub_index <- py_mod (sub_index + 1) n ;;
            h <- hash2 self key2 sub_table ;;
            if sub_index =? h then Raise FullError
            else Ok (Continue sub_index)
      end).

(** The loop, run for at most [fuel] passes.  [None]: it has neither
    returned nor raised within them. *)
Fixpoint probe_loop {V : Type} (fuel : nat) (self : DoubleKeyTable V)
    (key1 key2 : string) (is_insert : bool) (top_index : Z)
    (sub_table : option (LinearProbeTable.t V)) (sub_index : option Z)
    : option (result (Z * Z)) :=
  match fuel with
  | O => None
  | S fuel' =>
      match probe_body self key1 key2 is_insert top_index sub_table sub_index with
      | Return position => Some (Ok position)
      | Throw e => Some (Raise e)
      | Continue sub_index' =>
          probe_loop fuel' self key1 key2 is_insert top_index sub_table
            (Some sub_index')
      end
  end.

(** [_linear_probe] (lines 76-95). *)
Definition _linear_probe {V : Type} (fuel : nat) (self : DoubleKeyTable V)
    (key1 key2 : string) (is_insert : bool) : option (result (Z * Z)) :=
  match hash1 self key1 with
  | Raise e => Some (Raise e)
  | Ok top_index =>
      match ArrayR.getitem (table self) top_index with
      | Raise e => Some (Raise e)
      | Ok sub_table =>
          probe_loop fuel self key1 key2 is_insert top_index sub_table None
      end
  end.

(** ** The operations *)

(** [__getitem__] (lines 166-176). *)
Definition __getitem__ {V : Type} (fuel : nat) (self : DoubleKeyTable V)
    (key : string * string) : option (result V) :=
  match _linear_probe fuel self (fst key) (snd key) false with
  | None => None
  | Some (Raise e) => Some (Raise e)
  | Some (Ok (index1, index2)) =>
      Some (
        sub_table <- ArrayR.getitem (table self) index1 ;;
        match sub_table with
        | Some s =>
            if LinearProbeTable.contains s (snd key)
            then LinearProbeTable.getitem s (snd key)
            else Raise (KeyError None)
        | None => Raise (KeyError None)
        end)
  end.

(** [__contains__] (lines 153-164): only [KeyError] is caught. *)
Definition __contains__ {V : Type} (fuel : nat) (self : DoubleKeyTable V)
    (key : string * string) : option (result bool) :=
  match __getitem__ fuel self key with
  | None => None
  | Some (Ok _) => Some (Ok true)
  | Some (Raise (KeyError _)) => Some (Ok false)
  | Some (Raise e) => Some (Raise e)
  end.

(** [__setitem__] (lines 178-183): the object after the call and the
    outcome of the call. *)
Definition __setitem__ {V : Type} (self : DoubleKeyTable V)
    (key : string * string) (data : V) : DoubleKeyTable V * result unit :=
  (self, Raise NotImplementedError).

(** [__delitem__] (lines 185-191). *)
Definition __delitem__ {V : Type} (self : DoubleKeyTable V)
    (key : string * string) : DoubleKeyTable V * result unit :=
  (self, Raise NotImplementedError).

(** The method [table_size] (lines 203-207), when it is called. *)
Definition table_size {V : Type} (self : DoubleKeyTable V) : result Z :=
  Raise NotImplementedError.

(** [__len__] (lines 209-213). *)
Definition __len__ {V : Type} (self : DoubleKeyTable V) : result Z :=
  Raise NotImplementedError.

(** ** Enumeration and the remaining methods *)

(** [key[i]] for a string [key] and an index that is not negative: the
    string of the one character at [i]. *)
Definition str_getitem (key : string) (i : nat) : result string :=
  match String.get i key with
  | Some char => Ok (String char EmptyString)
  | None => Raise IndexError
  end.

(** [self[key]] where [key] is a string, as [keys] and [iter_keys] reach it
    through [key not in self]: line 172 takes [key[0]] and [key[1]] of it
    before it calls [_linear_probe]. *)
Definition getitem_str {V : Type} (fuel : nat) (self : DoubleKeyTable V)
    (key : string) : option (result V) :=
  match (key1 <- str_getitem key 0 ;; key2 <- str_getitem key 1 ;;
         Ok (key1, key2)) with
  | Raise e => Some (Raise e)
  | Ok key_pair => __getitem__ fuel self key_pair
  end.

(** [key in self] where [key] is a string (lines 159-164). *)
Definition contains_str {V : Type} (fuel : nat) (self : DoubleKeyTable V)
    (key : string) : option (result bool) :=
  match getitem_str fuel self key with
  | None => None
  | Some (Ok _) => Some (Ok true)
  | Some (Raise (KeyError _)) => Some (Ok false)
  | Some (Raise e) => Some (Raise e)
  end.

(** [self.size]: neither [__init__] nor the class gives the object an
    attribute of that name. *)
Definition self_size {V : Type} (self : DoubleKeyTable V) : result Z :=
  Raise AttributeError.

(** [self.table[i][0][0]] (lines 109 and 128): slot 0 of the inner table in
    outer slot [i], and the first component of what it holds. *)
Definition first_key_at {V : Type} (self : DoubleKeyTable V) (i : nat)
    : result string :=
  sub_table <- ArrayR.getitem (table self) (Z.of_nat i) ;;
  s <- sub_table_slot sub_table 0 ;;
  match s with
  | Some e => Ok (fst e)
  | None => Raise TypeError
  end.

(** The body of the loop of [keys] (lines 127-128). *)
Definition keys_body {V : Type} (self : DoubleKeyTable V)
    (keys_list : list string) (i : nat) : result (list string) :=
  sub_table <- ArrayR.getitem (table self) (Z.of_nat i) ;;
  if is_None sub_table then Ok keys_list
  else key <- first_key_at self i ;; Ok (keys_list ++ [key]).

(** How a call of [keys] ends: with a list, with an exception of the
    methods it calls, or with its own [KeyError], which carries a message. *)
Inductive keys_outcome : Type :=
| KeysReturn (keys_list : list string)
| KeysRaise (e : exn)
| KeysKeyError (message : string).

(** [keys] (lines 118-135). *)
Definition keys {V : Type} (fuel : nat) (self : DoubleKeyTable V)
    (key : option string) : option keys_outcome :=
  match key with
  | None =>
      Some
        match (size <- self_size self ;;
               for_each (keys_body self) [] (seq 0 (Z.to_nat size))) with
        | Ok keys_list => KeysReturn keys_list
        | Raise e => KeysRaise e
        end
  | Some k =>
      match contains_str fuel self k with
      | None => None
      | Some (Raise e) => Some (KeysRaise e)
      | Some (Ok false) =>
          Some (KeysKeyError ("Key " ++ k ++ " not found in table"))
      | Some (Ok true) =>
          (* line 134: [self._hash_func] is no attribute of the object *)
          Some (KeysRaise AttributeError)
      end
  end.

(** The loop of [iter_keys] (lines 107-109) over the outer slots [l]: the
    keys it yields and how it ends. *)
Fixpoint iter_keys_loop {V : Type} (self : DoubleKeyTable V) (l : list nat)
    : list string * result unit :=
  match l with
  | [] => ([], Ok tt)
  | i :: l' =>
      match ArrayR.getitem (table self) (Z.of_nat i) with
      | Raise e => ([], Raise e)
      | Ok sub_table =>
          if is_None sub_table then iter_keys_loop self l'
          else
            match first_key_at self i with
            | Raise e => ([], Raise e)
            | Ok key =>
                let (yielded, outcome) := iter_keys_loop self l' in
                (key :: yielded, outcome)
            end
      end
  end.

(** [iter_keys] (lines 98-116), run to its end: the keys the generator
    yields, and whether it then stops or raises. *)
Definition iter_keys {V : Type} (fuel : nat) (self : DoubleKeyTable V)
    (key : option string) : option (list string * result unit) :=
  match key with
  | None =>
      Some
        match self_size self with
        | Raise e => ([], Raise e)
        | Ok size => iter_keys_loop self (seq 0 (Z.to_nat size))
        end
  | Some k =>
      match contains_str fuel self k with
      | None => None
      | Some (Raise e) => Some ([], Raise e)
      | Some (Ok false) => Some ([], Ok tt)
      | Some (Ok true) =>
          (* line 114: [self._hash_func] is no attribute of the object *)
          Some ([], Raise AttributeError)
      end
  end.

(** [iter_values] (lines 137-144) and [values] (lines 146-151). *)
Definition iter_values {V : Type} (self : DoubleKeyTable V)
    (key : option string) : result (list V) :=
  Raise NotImplementedError.

Definition values {V : Type} (self : DoubleKeyTable V) (key : option string)
    : result (list V) :=
  Raise NotImplementedError.

(** [_rehash] (lines 193-201). *)
Definition _rehash {V : Type} (self : DoubleKeyTable V)
    : DoubleKeyTable V * result unit :=
  (self, Raise NotImplementedError).

(** [__str__] (lines 215-221). *)
Definition __str__ {V : Type} (self : DoubleKeyTable V) : result string :=
  Raise NotImplementedError.

(** ** Reachable objects and their entries *)

(** The objects a caller can hold: what the constructor returns, and what
    such an object becomes under calls of [__setitem__] and [__delitem__],
    whatever their outcome. *)
Inductive reachable {V : Type} : DoubleKeyTable V -> Prop :=
| reach_init sizes internal_sizes self :
    __init__ sizes internal_sizes = Ok self -> reachable self
| reach_set self key data :
    reachable self -> reachable (fst (__setitem__ self key data))
| reach_del self key :
    reachable self -> reachable (fst (__delitem__ self key)).

(** No slot of an outer array holds a table with a live entry. *)
Definition all_fresh {V : Type} (tbl : ArrayR.t (LinearProbeTable.t V)) : Prop :=
  Forall (fun o => forall s, o = Some s -> LinearProbeTable.live_count s = 0)
    tbl.

(** ** Objects used as examples *)

(** What [DoubleKeyTable(sizes=[5])] builds. *)
Definition table_5 : DoubleKeyTable Z :=
  mkDoubleKeyTable [5] 0%nat
    [Some (LinearProbeTable.new 5); None; None; None; None] 0 0%Q.

(** What [DoubleKeyTable(sizes=[1])] builds. *)
Definition table_1 : DoubleKeyTable Z :=
  mkDoubleKeyTable [1] 0%nat [Some (LinearProbeTable.new 1)] 0 0%Q.

(** An inner table of capacity 5 in which the second keys ["g"] and ["b"],
    both of hash 3, sit in slots 3 and 4, as linear probing places them.
    [n] is what [len] gives for it. *)
Definition colliding (n : Z) : LinearProbeTable.t Z :=
  LinearProbeTable.mk
    [None; None; None; Some ("", ("g", 10)); Some ("", ("b", 20))]%string n.

Definition table_gb (n : Z) : DoubleKeyTable Z :=
  mkDoubleKeyTable [5] 0%nat [Some (colliding n); None; None; None; None]
    2 0%Q.

(** * Properties *)

(** ** The probe *)

Section Probe.

Context {V : Type}.
Variable self : DoubleKeyTable V.
Variables key1 key2 : string.
Variable is_insert : bool.
Variable top_index : Z.
Variable sub_table : LinearProbeTable.t V.

(** Stepping from a slot of the array never gives the slot back when the
    modulus exceeds one. *)
Lemma advance_differs (i n : Z) : 0 <= i -> 1 < n -> (i + 1) mod n <> i.
Proof.
  intros Hi Hn Heq.
  destruct (Z.lt_trichotomy (i + 1) n) as [Hlt | [Heqn | Hgt]].
  - rewrite Z.mod_small in Heq by lia. lia.
  - rewrite Heqn, Z.mod_same in Heq by lia. lia.
  - pose proof (Z.mod_pos_bound (i + 1) n ltac:(lia)). lia.
Qed.

Lemma slot_index_nonneg (i : Z) (s : option (entry V)) :
  LinearProbeTable.slot sub_table i = Ok s -> 0 <= i.
Proof.
  unfold LinearProbeTable.slot, ArrayR.getitem.
  destruct (0 <=? i) eqn:Hle; simpl; [lia | discriminate].
Qed.

(** With a stranger in the hashed slot, one pass through the body ends at
    the bottom of the loop, whatever [sub_index] was on entry. *)
Lemma probe_body_collision (h : Z) (e : entry V) (prev : option Z) :
  hash2 self key2 (Some sub_table) = Ok h ->
  LinearProbeTable.slot sub_table h = Ok (Some e) ->
  entry_matches e key1 key2 = false ->
  1 < LinearProbeTable.len sub_table ->
  probe_body self key1 key2 is_insert top_index (Some sub_table) prev
  = Continue ((h + 1) mod LinearProbeTable.len sub_table).
Proof using Type.
  intros Hh Hslot Hne Hlen.
  pose proof (slot_index_nonneg _ _ Hslot) as Hpos.
  pose proof (advance_differs h _ Hpos Hlen) as Hadv.
  unfold probe_body. rewrite Hh. simpl. rewrite Hslot. simpl.
  destruct is_insert; simpl; rewrite ?Hslot; simpl;
    rewrite Hne;
    (destruct (LinearProbeTable.len sub_table =? 0) eqn:H0;
     [apply Z.eqb_eq in H0; lia |]); simpl;
    (destruct ((h + 1) mod LinearProbeTable.len sub_table =? h) eqn:Heq;
     [apply Z.eqb_eq in Heq; contradiction | reflexivity]).
Qed.

Lemma probe_loop_collision (h : Z) (e : entry V) :
  hash2 self key2 (Some sub_table) = Ok h ->
  LinearProbeTable.slot sub_table h = Ok (Some e) ->
  entry_matches e key1 key2 = false ->
  1 < LinearProbeTable.len sub_table ->
  forall fuel prev,
    probe_loop fuel self key1 key2 is_insert top_index (Some sub_table) prev
    = None.
Proof using Type.
  intros Hh Hslot Hne Hlen fuel.
  induction fuel as [| fuel IH]; intros prev; simpl; [reflexivity |].
  rewrite (probe_body_collision h e prev Hh Hslot Hne Hlen). apply IH.
Qed.

Lemma linear_probe_collision (h : Z) (e : entry V) :
  hash1 self key1 = Ok top_index ->
  ArrayR.getitem (table self) top_index = Ok (Some sub_table) ->
  hash2 self key2 (Some sub_table) = Ok h ->
  LinearProbeTable.slot sub_table h = Ok (Some e) ->
  entry_matches e key1 key2 = false ->
  1 < LinearProbeTable.len sub_table ->
  forall fuel, _linear_probe fuel self key1 key2 is_insert = None.
Proof using Type.
  intros H1 Hget Hh Hslot Hne Hlen fuel.
  unfold _linear_probe. rewrite H1, Hget.
  by eapply probe_loop_collision.
Qed.

(** When the hashed slot is empty the first pass decides: the slot is the
    insertion point, or the key pair is reported missing. *)
Lemma linear_probe_empty_slot (h : Z) (fuel : nat) :
  hash1 self key1 = Ok top_index ->
  ArrayR.getitem (table self) top_index = Ok (Some sub_table) ->
  hash2 self key2 (Some sub_table) = Ok h ->
  LinearProbeTable.slot sub_table h = Ok None ->
  _linear_probe (S fuel) self key1 key2 is_insert
  = Some (if is_insert then Ok (top_index, h)
          else Raise (KeyError (Some (key1, key2)))).
Proof using Type.
  intros H1 Hget Hh Hslot. unfold _linear_probe. rewrite H1, Hget.
  simpl. unfold probe_body. rewrite Hh. simpl.
  destruct is_insert; simpl; rewrite Hslot; reflexivity.
Qed.

(** When the hashed slot holds the key pair the first pass returns it. *)
Lemma linear_probe_match (h : Z) (e : entry V) (fuel : nat) :
  hash1 self key1 = Ok top_index ->
  ArrayR.getitem (table self) top_index = Ok (Some sub_table) ->
  hash2 self key2 (Some sub_table) = Ok h ->
  LinearProbeTable.slot sub_table h = Ok (Some e) ->
  entry_matches e key1 key2 = true ->
  _linear_probe (S fuel) self key1 key2 is_insert = Some (Ok (top_index, h)).
Proof using Type.
  intros H1 Hget Hh Hslot He. unfold _linear_probe. rewrite H1, Hget.
  simpl. unfold probe_body. rewrite Hh. simpl.
  destruct is_insert; simpl; rewrite Hslot; simpl; rewrite ?Hslot; simpl;
    rewrite He; reflexivity.
Qed.

End Probe.

(** C10: when the inner slot at the hashed index of [key2] holds an entry
    whose keys do not match and [len(sub_table)] exceeds 1, every pass
    through the loop body of [_linear_probe] reaches its bottom with the
    advanced index, whatever index it was entered with, because line 86
    sets the index back to the hash; so after any number of passes the
    loop has neither returned nor raised, for a lookup as for an insert. *)
Theorem linear_probe_does_not_terminate {V : Type} (self : DoubleKeyTable V)
    (key1 key2 : string) (is_insert : bool) (top_index sub_index : Z)
    (sub_table : LinearProbeTable.t V) (e : entry V) :
  hash1 self key1 = Ok top_index ->
  ArrayR.getitem (table self) top_index = Ok (Some sub_table) ->
  hash2 self key2 (Some sub_table) = Ok sub_index ->
  LinearProbeTable.slot sub_table sub_index = Ok (Some e) ->
  entry_matches e key1 key2 = false ->
  1 < LinearProbeTable.len sub_table ->
  (forall prev,
     probe_body self key1 key2 is_insert top_index (Some sub_table) prev
     = Continue ((sub_index + 1) mod LinearProbeTable.len sub_table)) /\
  (forall fuel, _linear_probe fuel self key1 key2 is_insert = None).
Proof.
  intros H1 Hget Hh Hslot Hne Hlen. split.
  - intros prev. by eapply probe_body_collision.
  - by eapply linear_probe_collision.
Qed.

Lemma linear_probe_does_not_terminate_witness :
  (forall prev,
     probe_body (table_gb 5) "" "b" false 0 (Some (colliding 5)) prev
     = Continue ((3 + 1) mod LinearProbeTable.len (colliding 5))) /\
  (forall fuel, _linear_probe fuel (table_gb 5) "" "b" false = None).
Proof.
  apply (linear_probe_does_not_terminate (table_gb 5) "" "b" false 0 3
           (colliding 5) ("", ("g", 10))%string);
    [reflexivity | reflexivity | reflexivity | reflexivity | reflexivity
    | simpl; lia].
Defined.

(** C2: [_linear_probe] does not scan forward.  In an inner table where
    ["g"] fills the hashed slot 3 of ["b"] and ["b"] itself sits in the
    next slot, the probe for ["b"] never returns slot 4, nor anything else,
    whether it looks up or inserts and whatever modulus above one it wraps
    at. *)
Theorem linear_probe_misses_next_slot :
  LinearProbeTable.slot (colliding 5) 4 = Ok (Some ("", ("b", 20))%string) /\
  forall (n : Z) (is_insert : bool) (fuel : nat),
    1 < n -> _linear_probe fuel (table_gb n) "" "b" is_insert = None.
Proof.
  split; [reflexivity |].
  intros n is_insert fuel Hn.
  apply (linear_probe_collision (table_gb n) "" "b" is_insert 0 (colliding n)
           3 ("", ("g", 10))%string);
    [reflexivity | reflexivity | reflexivity | reflexivity | reflexivity
    | exact Hn].
Qed.

(** ** The hash functions *)

Section Hash.

Variable capacity : Z.
Hypothesis capacity_ge_2 : 2 <= capacity.

Lemma hash_loop_int (key : string) (value a : Z) :
  hash_loop (Ok (PyInt capacity)) key value a
  = Ok (spec_hash_from capacity key value a).
Proof using capacity_ge_2.
  revert value a.
  induction key as [| char key' IH]; intros value a; simpl; [reflexivity |].
  destruct (capacity =? 0) eqn:H0; [apply Z.eqb_eq in H0; lia |].
  destruct (capacity - 1 =? 0) eqn:H1; [apply Z.eqb_eq in H1; lia |].
  simpl. apply IH.
Qed.

Lemma spec_hash_from_range (key : string) (value a : Z) :
  0 <= value < capacity ->
  0 <= spec_hash_from capacity key value a < capacity.
Proof using capacity_ge_2.
  revert value a.
  induction key as [| char key' IH]; intros value a Hv; simpl; [exact Hv |].
  apply IH. apply Z.mod_pos_bound. lia.
Qed.

End Hash.

(** C5, as amended: for every string key and every inner table whose
    capacity is at least 2, [hash2] returns the polynomial rolling hash of
    the spec, [value = (char_code + a*value) mod capacity] with
    [a = (a * HASH_BASE) mod (capacity - 1)], started from 0 and 31415;
    the value lies in [0, capacity); and it is a function of the key and of
    that capacity alone, whatever the outer table and the content of the
    inner one. *)
Theorem hash2_is_rolling_hash {V : Type} (self : DoubleKeyTable V)
    (key : string) (sub_table : LinearProbeTable.t V) :
  2 <= LinearProbeTable.table_size sub_table ->
  hash2 self key (Some sub_table)
  = Ok (spec_hash (LinearProbeTable.table_size sub_table) key) /\
  0 <= spec_hash (LinearProbeTable.table_size sub_table) key
    < LinearProbeTable.table_size sub_table.
Proof.
  intros Hcap. split.
  - unfold hash2, spec_hash. simpl. by apply hash_loop_int.
  - unfold spec_hash. apply spec_hash_from_range; lia.
Qed.

Lemma hash2_is_rolling_hash_witness :
  hash2 table_5 "hello" (Some (LinearProbeTable.new 5))
  = Ok (spec_hash (LinearProbeTable.table_size (@LinearProbeTable.new Z 5))
          "hello") /\
  0 <= spec_hash (LinearProbeTable.table_size (@LinearProbeTable.new Z 5))
         "hello"
    < LinearProbeTable.table_size (@LinearProbeTable.new Z 5).
Proof.
  apply (hash2_is_rolling_hash table_5 "hello" (LinearProbeTable.new 5)).
  vm_compute. discriminate.
Defined.

(** C5, as stated, fails: the table [DoubleKeyTable(sizes=[1])] holds an
    inner table of capacity 1, and [hash2] of the key ["b"] for that table
    divides by [capacity - 1]: it raises instead of returning a value in
    [0, capacity). *)
Lemma hash2_capacity_one_raises :
  __init__ (Some [1]) None = Ok table_1 /\
  ArrayR.getitem (table table_1) 0 = Ok (Some (LinearProbeTable.new 1)) /\
  hash2 table_1 "b" (Some (LinearProbeTable.new 1)) = Raise ZeroDivisionError /\
  ~ (exists value : Z,
       hash2 table_1 "b" (Some (LinearProbeTable.new 1)) = Ok value /\
       0 <= value < LinearProbeTable.table_size (@LinearProbeTable.new Z 1)).
Proof.
  repeat split; try reflexivity.
  intros [value [Hv _]]. vm_compute in Hv. discriminate.
Qed.

(** On the outer table the modulus of [hash1] is the method [table_size]
    itself: every key with a first character raises. *)
Lemma hash1_nonempty_raises {V : Type} (self : DoubleKeyTable V)
    (char : ascii) (key : string) :
  hash1 self (String char key) = Raise TypeError.
Proof. reflexivity. Qed.

Lemma hash1_empty {V : Type} (self : DoubleKeyTable V) : hash1 self "" = Ok 0.
Proof. reflexivity. Qed.

(** ** Construction *)

Section Init.

Context {V : Type}.
Variable sizes : list Z.
Variable internal_sizes : option (list Z).

Lemma list_getitem_raises (l : list Z) (i : nat) (e : exn) :
  list_getitem l i = Raise e -> e = IndexError.
Proof.
  unfold list_getitem. destruct (l !! i); [discriminate |]. congruence.
Qed.

Lemma init_body_raises (tbl : ArrayR.t (LinearProbeTable.t V)) (i : nat) (e : exn) :
  init_body sizes internal_sizes tbl i = Raise e -> e = IndexError.
Proof using Type.
  unfold init_body, ArrayR.setitem.
  destruct internal_sizes as [l |].
  - destruct (list_getitem l i) eqn:Hg; simpl.
    + destruct (_ && _); [discriminate | congruence].
    + intros [= <-]. by eapply list_getitem_raises.
  - destruct (list_getitem sizes i) eqn:Hg; simpl.
    + destruct (_ && _); [discriminate | congruence].
    + intros [= <-]. by eapply list_getitem_raises.
Qed.

Lemma init_body_ok (tbl tbl' : ArrayR.t (LinearProbeTable.t V)) (i : nat) :
  init_body sizes internal_sizes tbl i = Ok tbl' ->
  (i < length tbl)%nat /\
  exists n, tbl' = <[i := Some (LinearProbeTable.new n)]> tbl.
Proof using Type.
  unfold init_body, ArrayR.setitem, ArrayR.len.
  destruct (match internal_sizes with
            | Some l => list_getitem l i
            | None => list_getitem sizes i
            end) as [n | e]; simpl; [| discriminate].
  destruct (_ && _) eqn:Hrange; [| discriminate].
  intros [= <-]. rewrite Nat2Z.id. split; [| by exists n].
  apply andb_prop in Hrange as [_ Hlt]. apply Z.ltb_lt in Hlt. lia.
Qed.

Lemma for_each_init_raises (l : list nat) (tbl : ArrayR.t (LinearProbeTable.t V)) (e : exn) :
  for_each (init_body sizes internal_sizes) tbl l = Raise e ->
  e = IndexError.
Proof using Type.
  revert tbl. induction l as [| i l IH]; intros tbl; simpl; [discriminate |].
  destruct (init_body sizes internal_sizes tbl i) as [tbl' | e'] eqn:Hb;
    simpl.
  - apply IH.
  - intros [= <-]. by eapply init_body_raises.
Qed.

Lemma new_live_count (n : Z) :
  LinearProbeTable.live_count (@LinearProbeTable.new V n) = 0.
Proof.
  unfold LinearProbeTable.live_count, LinearProbeTable.new. simpl.
  induction (Z.to_nat n) as [| k IH]; simpl; [reflexivity | exact IH].
Qed.

Lemma for_each_init_ok (l : list nat) (tbl tbl' : ArrayR.t (LinearProbeTable.t V)) :
  for_each (init_body sizes internal_sizes) tbl l = Ok tbl' ->
  Forall (fun i => (i < length tbl)%nat) l /\
  (all_fresh tbl -> all_fresh tbl').
Proof using Type.
  revert tbl. induction l as [| i l IH]; intros tbl; simpl.
  - intros [= <-]. split; [constructor | tauto].
  - destruct (init_body sizes internal_sizes tbl i) as [tbl1 | e] eqn:Hb;
      simpl; [| discriminate].
    intros Hrest.
    apply init_body_ok in Hb as [Hi [n ->]].
    apply IH in Hrest as [Hall Hfresh].
    split.
    { constructor; [exact Hi |].
      eapply Forall_impl; [exact Hall |].
      intros j Hj. unfold ArrayR.t in *. by rewrite length_insert in Hj. }
    intros Htbl. apply Hfresh. unfold all_fresh, ArrayR.t in *.
  apply Forall_insert; [exact Htbl |].
    intros s [= <-]. apply new_live_count.
Qed.

Lemma new_all_fresh (n : Z) : all_fresh (@ArrayR.new (LinearProbeTable.t V) n).
Proof.
  unfold all_fresh, ArrayR.new. apply Forall_replicate. discriminate.
Qed.

End Init.

(** C9: for every size sequence whose length exceeds its first element, be
    it given by the caller or the default one, and whatever inner sizes are
    given, the loop of the constructor runs past the capacity of the outer
    array, which is that first element: the constructor raises [IndexError]
    and returns no table. *)
Theorem init_out_of_bounds {V : Type} (sizes internal_sizes : option (list Z))
    (first : Z) (rest : list Z) :
  default TABLE_SIZES_default sizes = first :: rest ->
  first < Z.of_nat (length (first :: rest)) ->
  @__init__ V sizes internal_sizes = Raise IndexError.
Proof.
  intros Hsizes Hlen. unfold __init__. rewrite Hsizes.
  change (list_getitem (first :: rest) 0) with (Ok first). cbn [bind].
  destruct (for_each _ _ _) as [tbl | e] eqn:Hloop; cbn [bind].
  - exfalso. apply for_each_init_ok in Hloop as [Hall _].
    rewrite Forall_forall in Hall.
    specialize (Hall (length rest)).
    unfold ArrayR.new in Hall. rewrite length_replicate in Hall.
    assert (Hin : length rest ∈ seq 0 (length (first :: rest))).
    { apply elem_of_seq. simpl. lia. }
    apply Hall in Hin. simpl in Hlen. lia.
  - f_equal. by eapply for_each_init_raises.
Qed.

Lemma init_out_of_bounds_witness :
  @__init__ Z None None = Raise IndexError.
Proof.
  apply (init_out_of_bounds None None 5
           [13; 29; 53; 97; 193; 389; 769; 1543; 3079; 6151; 12289; 24593;
            49157; 98317; 196613; 393241; 786433; 1572869]);
    [reflexivity | simpl; lia].
Defined.

(** ** The operations *)

(** C1: [__setitem__] stores nothing.  On any table it raises
    [NotImplementedError] and leaves the table as it was; on the table that
    [DoubleKeyTable(sizes=[5])] builds, the lookup of the pair after the
    call raises [KeyError] instead of returning the value. *)
Theorem setitem_stores_nothing :
  (forall (self : DoubleKeyTable Z) key data,
     __setitem__ self key data = (self, Raise NotImplementedError)) /\
  __init__ (Some [5]) None = Ok table_5 /\
  forall fuel,
    __getitem__ (S fuel) (fst (__setitem__ table_5 ("", "b")%string 7))
      ("", "b")%string
    = Some (Raise (KeyError (Some ("", "b")%string))).
Proof. repeat split. Qed.

(** C3: on the table that [DoubleKeyTable(sizes=[5])] builds, which holds
    no pair, the lookup of [("a", "b")] raises [TypeError], not [KeyError]:
    [hash1] cannot hash a key with a first character.  And where the pair
    [("", "b")] is stored with the value 20 behind a collision, its lookup
    never returns. *)
Theorem getitem_wrong_outcomes :
  __init__ (Some [5]) None = Ok table_5 /\
  (forall fuel,
     __getitem__ fuel table_5 ("a", "b")%string = Some (Raise TypeError)) /\
  LinearProbeTable.getitem (colliding 5) "b" = Ok 20 /\
  (forall n fuel,
     1 < n -> __getitem__ fuel (table_gb n) ("", "b")%string = None).
Proof.
  repeat split.
  intros n fuel Hn. unfold __getitem__.
  rewrite (linear_probe_collision (table_gb n) "" "b" false 0 (colliding n)
             3 ("", ("g", 10))%string); [reflexivity | reflexivity
    | reflexivity | reflexivity | reflexivity | reflexivity | exact Hn].
Qed.

(** C6: [__contains__] catches [KeyError] alone.  On the table that
    [DoubleKeyTable(sizes=[5])] builds the test of [("a", "b")] raises the
    [TypeError] of [hash1]; and behind a collision the test of a stored
    pair never returns. *)
Theorem contains_can_fail :
  __init__ (Some [5]) None = Ok table_5 /\
  (forall fuel,
     __contains__ fuel table_5 ("a", "b")%string = Some (Raise TypeError)) /\
  (forall n fuel,
     1 < n -> __contains__ fuel (table_gb n) ("", "b")%string = None).
Proof.
  repeat split.
  intros n fuel Hn. unfold __contains__, __getitem__.
  rewrite (linear_probe_collision (table_gb n) "" "b" false 0 (colliding n)
             3 ("", ("g", 10))%string); [reflexivity | reflexivity
    | reflexivity | reflexivity | reflexivity | reflexivity | exact Hn].
Qed.

(** C8: [__len__] returns no count.  On any table it raises
    [NotImplementedError]; so it does on the table that
    [DoubleKeyTable(sizes=[5])] builds, whose [num_entries] is 0. *)
Theorem len_not_implemented :
  (forall self : DoubleKeyTable Z, __len__ self = Raise NotImplementedError) /\
  __init__ (Some [5]) None = Ok table_5 /\
  num_entries table_5 = 0 /\
  __len__ table_5 <> Ok (num_entries table_5).
Proof. repeat split. discriminate. Qed.

(** * Further properties *)

(** ** Outcomes of the probe *)

Lemma hash_loop_int_raises (n : Z) (key : string) (value a : Z) (e : exn) :
  hash_loop (Ok (PyInt n)) key value a = Raise e -> e = ZeroDivisionError.
Proof.
  revert value a. induction key as [| char key' IH]; intros value a; simpl;
    [discriminate |].
  destruct (n =? 0); simpl; [congruence |].
  destruct (n - 1 =? 0); simpl; [congruence |]. apply IH.
Qed.

Lemma ArrayR_getitem_raises {A : Type} (a : ArrayR.t A) (i : Z) (e : exn) :
  ArrayR.getitem a i = Raise e -> e = IndexError.
Proof.
  unfold ArrayR.getitem. destruct (_ && _); [| congruence].
  destruct (a !! Z.to_nat i); [discriminate | congruence].
Qed.

Lemma ArrayR_getitem_range {A : Type} (a : ArrayR.t A) (i : Z) (x : option A) :
  ArrayR.getitem a i = Ok x -> 0 <= i < ArrayR.len a.
Proof.
  unfold ArrayR.getitem. destruct (_ && _) eqn:Hr; [| discriminate].
  intros _. apply andb_prop in Hr as [H0 H1].
  apply Z.leb_le in H0. apply Z.ltb_lt in H1. lia.
Qed.

Section ProbeOutcomes.

Context {V : Type}.
Variable self : DoubleKeyTable V.
Variables key1 key2 : string.
Variable is_insert : bool.

(** Line 86 makes the body blind to the index it is entered with. *)
Lemma probe_body_prev (top_index : Z) (sub_table : option (LinearProbeTable.t V))
    (prev : option Z) :
  probe_body self key1 key2 is_insert top_index sub_table prev
  = probe_body self key1 key2 is_insert top_index sub_table None.
Proof. reflexivity. Qed.

Lemma probe_loop_after_continue (top_index : Z)
    (sub_table : option (LinearProbeTable.t V)) (i : Z) :
  probe_body self key1 key2 is_insert top_index sub_table None = Continue i ->
  forall fuel prev,
    probe_loop fuel self key1 key2 is_insert top_index sub_table prev = None.
Proof using Type.
  intros Hb fuel. induction fuel as [| fuel IH]; intros prev; simpl;
    [reflexivity |].
  rewrite probe_body_prev, Hb. apply IH.
Qed.

Lemma probe_loop_first_pass (top_index : Z)
    (sub_table : option (LinearProbeTable.t V)) (fuel : nat) (prev : option Z) :
  probe_loop (S fuel) self key1 key2 is_insert top_index sub_table prev
  = probe_loop 1 self key1 key2 is_insert top_index sub_table None.
Proof using Type.
  simpl. rewrite probe_body_prev.
  destruct (probe_body self key1 key2 is_insert top_index sub_table None)
    as [position | e | i] eqn:Hb; try reflexivity.
  by eapply probe_loop_after_continue.
Qed.

Lemma linear_probe_first_pass (fuel : nat) :
  _linear_probe (S fuel) self key1 key2 is_insert
  = _linear_probe 1 self key1 key2 is_insert.
Proof using Type.
  unfold _linear_probe.
  destruct (hash1 self key1) as [top_index | e]; [| reflexivity].
  destruct (ArrayR.getitem (table self) top_index) as [sub_table | e];
    [| reflexivity].
  apply probe_loop_first_pass.
Qed.

(** What a pass that returns has seen. *)
Lemma probe_body_return (top_index : Z)
    (sub_table : option (LinearProbeTable.t V)) (i j : Z) :
  probe_body self key1 key2 is_insert top_index sub_table None = Return (i, j) ->
  i = top_index /\
  exists s, sub_table = Some s /\
    hash2 self key2 (Some s) = Ok j /\
    ((is_insert = true /\ LinearProbeTable.slot s j = Ok None) \/
     exists e, LinearProbeTable.slot s j = Ok (Some e) /\
               entry_matches e key1 key2 = true).
Proof using Type.
  unfold probe_body.
  destruct (hash2 self key2 sub_table) as [h | e0] eqn:Hh; simpl;
    [| discriminate].
  destruct sub_table as [s |]; simpl.
  - destruct (LinearProbeTable.slot s h) as [[e |] | e0] eqn:Hslot.
    + destruct is_insert; simpl; rewrite ?Hslot; simpl;
        (destruct (entry_matches e key1 key2) eqn:He;
         [ intros [= <- <-]; split; [reflexivity |];
           exists s; split; [reflexivity |]; split; [exact Hh |];
           right; by exists e
         | destruct (LinearProbeTable.len s =? 0); simpl; [discriminate |];
           destruct (_ =? h); discriminate ]).
    + destruct is_insert; simpl; rewrite ?Hslot; simpl; [| discriminate].
      intros [= <- <-]. split; [reflexivity |].
      exists s. split; [reflexivity |]. split; [exact Hh |]. by left.
    + destruct is_insert; simpl; rewrite ?Hslot; simpl; discriminate.
  - destruct is_insert; simpl; discriminate.
Qed.

(** What a pass that raises [FullError] has seen. *)
Lemma probe_body_full (top_index : Z) (s : LinearProbeTable.t V) :
  0 <= LinearProbeTable.len s ->
  probe_body self key1 key2 is_insert top_index (Some s) None = Throw FullError ->
  LinearProbeTable.len s = 1 /\ hash2 self key2 (Some s) = Ok 0.
Proof using Type.
  intros Hlen. unfold probe_body.
  destruct (hash2 self key2 (Some s)) as [h | e0] eqn:Hh; simpl.
  2: { intros [= ->]. apply hash_loop_int_raises in Hh. discriminate. }
  destruct (LinearProbeTable.slot s h) as [[e |] | e0] eqn:Hslot.
  - assert (Hpos : 0 <= h).
    { unfold LinearProbeTable.slot in Hslot.
      apply ArrayR_getitem_range in Hslot. lia. }
    destruct is_insert; simpl; rewrite ?Hslot; simpl;
      (destruct (entry_matches e key1 key2); [discriminate |]);
      (destruct (LinearProbeTable.len s =? 0) eqn:H0; simpl;
       [discriminate |]);
      (destruct ((h + 1) mod LinearProbeTable.len s =? h) eqn:Heq;
       [| discriminate]);
      intros _; apply Z.eqb_neq in H0; apply Z.eqb_eq in Heq;
      (destruct (Z.eq_dec (LinearProbeTable.len s) 1) as [H1 | H1];
       [ rewrite H1, Z.mod_1_r in Heq; split; [exact H1 | by subst h]
       | exfalso; apply (advance_differs h (LinearProbeTable.len s)); lia ]).
  - destruct is_insert; simpl; rewrite ?Hslot; simpl; discriminate.
  - destruct is_insert; simpl; rewrite ?Hslot; simpl;
      intros [= ->]; unfold LinearProbeTable.slot in Hslot;
      apply ArrayR_getitem_raises in Hslot; discriminate.
Qed.

End ProbeOutcomes.

(** X1: the probe, and the lookup and the membership test built on it, end
    in the first pass through the loop or never: whatever the table, the
    keys and the mode, the outcome after any number of passes is the
    outcome after one. *)
Theorem first_pass_decides {V : Type} (self : DoubleKeyTable V)
    (key1 key2 : string) (is_insert : bool) (fuel : nat) :
  _linear_probe (S fuel) self key1 key2 is_insert
  = _linear_probe 1 self key1 key2 is_insert /\
  __getitem__ (S fuel) self (key1, key2) = __getitem__ 1 self (key1, key2) /\
  __contains__ (S fuel) self (key1, key2) = __contains__ 1 self (key1, key2).
Proof.
  split; [apply linear_probe_first_pass |].
  assert (Hget : __getitem__ (S fuel) self (key1, key2)
                 = __getitem__ 1 self (key1, key2)).
  { unfold __getitem__. cbn [fst snd].
    by rewrite (linear_probe_first_pass self key1 key2 false fuel). }
  split; [exact Hget |]. unfold __contains__. by rewrite Hget.
Qed.

(** X2: a position that [_linear_probe] returns is the hashed one.  The
    first key is the empty string, the outer index is 0, the inner index is
    [hash2] of the second key for the inner table in outer slot 0, and the
    slot at that index is empty, which only an insert accepts, or holds the
    key pair. *)
Theorem linear_probe_returns_hashed_slot {V : Type} (self : DoubleKeyTable V)
    (key1 key2 : string) (is_insert : bool) (fuel : nat) (i j : Z) :
  _linear_probe fuel self key1 key2 is_insert = Some (Ok (i, j)) ->
  key1 = EmptyString /\ i = 0 /\
  exists s,
    ArrayR.getitem (table self) 0 = Ok (Some s) /\
    hash2 self key2 (Some s) = Ok j /\
    ((is_insert = true /\ LinearProbeTable.slot s j = Ok None) \/
     exists e, LinearProbeTable.slot s j = Ok (Some e) /\
               entry_matches e key1 key2 = true).
Proof.
  destruct key1 as [| char key1']; [| discriminate].
  intros Hp. split; [reflexivity |].
  destruct fuel as [| fuel].
  - unfold _linear_probe in Hp. simpl in Hp.
    destruct (ArrayR.getitem (table self) 0); discriminate.
  - rewrite linear_probe_first_pass in Hp. unfold _linear_probe in Hp.
    change (hash1 self "") with (@Ok Z 0) in Hp. cbv iota beta in Hp.
    destruct (ArrayR.getitem (table self) 0) as [sub_table | e0] eqn:Hget;
      [| discriminate].
    simpl in Hp.
    destruct (probe_body self "" key2 is_insert 0 sub_table None)
      as [position | e0 | i'] eqn:Hb; try discriminate.
    injection Hp as ->.
    apply probe_body_return in Hb as [-> [s [-> Hs]]].
    split; [reflexivity |]. by exists s.
Qed.

Lemma linear_probe_returns_hashed_slot_witness :
  "" = EmptyString /\ 0 = 0 /\
  exists s,
    ArrayR.getitem (table table_5) 0 = Ok (Some s) /\
    hash2 table_5 "b" (Some s) = Ok 3 /\
    ((true = true /\ LinearProbeTable.slot s 3 = Ok None) \/
     exists e, LinearProbeTable.slot s 3 = Ok (Some e) /\
               entry_matches e "" "b" = true).
Proof.
  apply (linear_probe_returns_hashed_slot table_5 "" "b" true 1 0 3).
  reflexivity.
Defined.

(** X3: [FullError] is the mark of an inner table whose [len] is 1.  When
    [len(sub_table)] is not negative and the probe raises [FullError], that
    length is 1 and the hash of the second key is 0: a table of greater
    length never makes the probe raise it, however full it is. *)
Theorem linear_probe_full_only_len_one {V : Type} (self : DoubleKeyTable V)
    (key1 key2 : string) (is_insert : bool) (fuel : nat) (top_index : Z)
    (s : LinearProbeTable.t V) :
  hash1 self key1 = Ok top_index ->
  ArrayR.getitem (table self) top_index = Ok (Some s) ->
  0 <= LinearProbeTable.len s ->
  _linear_probe fuel self key1 key2 is_insert = Some (Raise FullError) ->
  LinearProbeTable.len s = 1 /\ hash2 self key2 (Some s) = Ok 0.
Proof.
  intros H1 Hget Hlen Hp.
  destruct fuel as [| fuel].
  - unfold _linear_probe in Hp. rewrite H1, Hget in Hp. discriminate.
  - rewrite linear_probe_first_pass in Hp. unfold _linear_probe in Hp.
    rewrite H1, Hget in Hp. simpl in Hp.
    destruct (probe_body self key1 key2 is_insert top_index (Some s) None)
      as [position | e0 | i'] eqn:Hb; try discriminate.
    injection Hp as ->. by eapply probe_body_full.
Qed.

(** A table whose single inner slot is taken by the second key ["z"]. *)
Lemma linear_probe_full_only_len_one_witness :
  LinearProbeTable.len
    (LinearProbeTable.mk [Some ("", ("z", 10))]%string 1) = 1 /\
  hash2 (mkDoubleKeyTable [1] 0%nat
           [Some (LinearProbeTable.mk [Some ("", ("z", 10))]%string 1)]
           1 0%Q) ""
    (Some (LinearProbeTable.mk [Some ("", ("z", 10))]%string 1)) = Ok 0.
Proof.
  apply (linear_probe_full_only_len_one
           (mkDoubleKeyTable [1] 0%nat
              [Some (LinearProbeTable.mk [Some ("", ("z", 10))]%string 1)]
              1 0%Q) "" "" false 1 0
           (LinearProbeTable.mk [Some ("", ("z", 10))]%string 1));
    [reflexivity | reflexivity | simpl; lia | reflexivity].
Defined.

(** X4: no key pair whose first key has a character can be probed, looked
    up or tested: on every table, in either mode and before any pass
    through the loop, [hash1] raises [TypeError], and [__contains__] lets
    it through. *)
Theorem nonempty_first_key_raises {V : Type} (self : DoubleKeyTable V)
    (char : ascii) (key1 key2 : string) (is_insert : bool) (fuel : nat) :
  _linear_probe fuel self (String char key1) key2 is_insert
  = Some (Raise TypeError) /\
  __getitem__ fuel self (String char key1, key2) = Some (Raise TypeError) /\
  __contains__ fuel self (String char key1, key2) = Some (Raise TypeError).
Proof. repeat split. Qed.

(** ** Lookups that the first pass settles *)

Lemma slot_lookup {V : Type} (s : LinearProbeTable.t V) (h : Z)
    (x : option (entry V)) :
  LinearProbeTable.slot s h = Ok x ->
  LinearProbeTable.array s !! Z.to_nat h = Some x.
Proof.
  unfold LinearProbeTable.slot, ArrayR.getitem, ArrayR.t.
  destruct (_ && _); [| discriminate].
  destruct (LinearProbeTable.array s !! Z.to_nat h); [| discriminate].
  by intros [= ->].
Qed.

Lemma find_unique {A : Type} (f : A -> bool) (l : list A) (x : A) :
  x ∈ l -> f x = true ->
  (forall y, y ∈ l -> f y = true -> y = x) ->
  List.find f l = Some x.
Proof.
  intros Hin Hfx Huniq.
  destruct (List.find f l) as [y |] eqn:Hfind.
  - apply find_some in Hfind as [Hy Hfy].
    f_equal. apply Huniq; [by apply list_elem_of_In | exact Hfy].
  - exfalso. apply list_elem_of_In in Hin.
    pose proof (find_none f l Hfind x Hin) as Hn. congruence.
Qed.

(** X5: the lookup of a key pair whose hashed slot is empty.  The probe
    for an insert returns that slot; the probe for a lookup and
    [__getitem__] raise [KeyError] with the key pair; [__contains__]
    returns [False]. *)
Theorem empty_hashed_slot_is_a_miss {V : Type} (self : DoubleKeyTable V)
    (key1 key2 : string) (top_index h : Z) (s : LinearProbeTable.t V)
    (fuel : nat) :
  hash1 self key1 = Ok top_index ->
  ArrayR.getitem (table self) top_index = Ok (Some s) ->
  hash2 self key2 (Some s) = Ok h ->
  LinearProbeTable.slot s h = Ok None ->
  _linear_probe (S fuel) self key1 key2 true = Some (Ok (top_index, h)) /\
  _linear_probe (S fuel) self key1 key2 false
  = Some (Raise (KeyError (Some (key1, key2)))) /\
  __getitem__ (S fuel) self (key1, key2)
  = Some (Raise (KeyError (Some (key1, key2)))) /\
  __contains__ (S fuel) self (key1, key2) = Some (Ok false).
Proof.
  intros H1 Hget Hh Hslot.
  pose proof (linear_probe_empty_slot self key1 key2 true top_index s h fuel
                H1 Hget Hh Hslot) as Hins.
  pose proof (linear_probe_empty_slot self key1 key2 false top_index s h fuel
                H1 Hget Hh Hslot) as Hlook.
  cbv iota in Hins, Hlook.
  assert (Hitem : __getitem__ (S fuel) self (key1, key2)
                  = Some (Raise (KeyError (Some (key1, key2))))).
  { unfold __getitem__. cbn [fst snd]. by rewrite Hlook. }
  repeat split; try assumption.
  unfold __contains__. by rewrite Hitem.
Qed.

Lemma empty_hashed_slot_is_a_miss_witness :
  _linear_probe 1 table_5 "" "b" true = Some (Ok (0, 3)) /\
  _linear_probe 1 table_5 "" "b" false
  = Some (Raise (KeyError (Some ("", "b")%string))) /\
  __getitem__ 1 table_5 ("", "b")%string
  = Some (Raise (KeyError (Some ("", "b")%string))) /\
  __contains__ 1 table_5 ("", "b")%string = Some (Ok false).
Proof.
  apply (empty_hashed_slot_is_a_miss table_5 "" "b" 0 3
           (LinearProbeTable.new 5) 0); reflexivity.
Defined.

(** X6: the lookup of a key pair that sits in its hashed slot.  When the
    slot at the hash of the second key holds the pair, and no other slot of
    the inner table holds that second key, the probe returns the slot in
    either mode, [__getitem__] returns the value stored there and
    [__contains__] returns [True]. *)
Theorem hashed_slot_is_a_hit {V : Type} (self : DoubleKeyTable V)
    (key1 key2 : string) (top_index h : Z) (s : LinearProbeTable.t V)
    (e : entry V) (is_insert : bool) (fuel : nat) :
  hash1 self key1 = Ok top_index ->
  ArrayR.getitem (table self) top_index = Ok (Some s) ->
  hash2 self key2 (Some s) = Ok h ->
  LinearProbeTable.slot s h = Ok (Some e) ->
  entry_matches e key1 key2 = true ->
  (forall (j : nat) (e' : entry V),
     LinearProbeTable.array s !! j = Some (Some e') ->
     fst (snd e') = key2 -> e' = e) ->
  _linear_probe (S fuel) self key1 key2 is_insert = Some (Ok (top_index, h)) /\
  __getitem__ (S fuel) self (key1, key2) = Some (Ok (snd (snd e))) /\
  __contains__ (S fuel) self (key1, key2) = Some (Ok true).
Proof.
  intros H1 Hget Hh Hslot He Huniq.
  assert (Hp : forall m, _linear_probe (S fuel) self key1 key2 m
                         = Some (Ok (top_index, h))).
  { intros m. by eapply linear_probe_match. }
  assert (Hk2 : LinearProbeTable.holds_key2 key2 e = true).
  { unfold entry_matches in He. apply andb_prop in He as [_ He].
    exact He. }
  assert (Hin : e ∈ omap id (LinearProbeTable.array s)).
  { apply list_elem_of_omap. exists (Some e). split; [| reflexivity].
    apply list_elem_of_lookup. exists (Z.to_nat h). by apply slot_lookup. }
  assert (Hfind : List.find (LinearProbeTable.holds_key2 key2)
                    (omap id (LinearProbeTable.array s)) = Some e).
  { apply find_unique; [exact Hin | exact Hk2 |].
    intros e' Hin' Hk'.
    apply list_elem_of_omap in Hin' as [[x |] [Hx Hid]]; [| discriminate].
    injection Hid as ->.
    apply list_elem_of_lookup in Hx as [j Hj].
    apply (Huniq j e' Hj).
    unfold LinearProbeTable.holds_key2 in Hk'. by apply String.eqb_eq. }
  assert (Hitem : __getitem__ (S fuel) self (key1, key2)
                  = Some (Ok (snd (snd e)))).
  { unfold __getitem__. cbn [fst snd]. rewrite Hp, Hget. cbn [bind].
    unfold LinearProbeTable.contains, LinearProbeTable.getitem.
    rewrite Hfind.
    destruct (existsb _ _) eqn:Hex; [reflexivity |].
    exfalso. apply list_elem_of_In in Hin.
    assert (Htrue : existsb (LinearProbeTable.holds_key2 key2)
                      (omap id (LinearProbeTable.array s)) = true).
    { apply existsb_exists. by exists e. }
    congruence. }
  split; [apply Hp |]. split; [exact Hitem |].
  unfold __contains__. by rewrite Hitem.
Qed.

Lemma hashed_slot_is_a_hit_witness :
  _linear_probe 1 (table_gb 5) "" "g" false = Some (Ok (0, 3)) /\
  __getitem__ 1 (table_gb 5) ("", "g")%string = Some (Ok 10) /\
  __contains__ 1 (table_gb 5) ("", "g")%string = Some (Ok true).
Proof.
  apply (hashed_slot_is_a_hit (table_gb 5) "" "g" 0 3 (colliding 5)
           ("", ("g", 10))%string false 0);
    [reflexivity | reflexivity | reflexivity | reflexivity | reflexivity |].
  intros j e' Hj Hk.
  destruct j as [| [| [| [| [| j]]]]]; simpl in Hj; try discriminate.
  - by injection Hj as <-.
  - injection Hj as <-. simpl in Hk. discriminate.
Defined.

(** ** The second hash on small tables *)

(** X7: where [hash2] cannot hash.  For a key with a first character it
    raises [AttributeError] when there is no inner table, and
    [ZeroDivisionError] when the inner table has at most one slot; the
    empty key hashes to 0 in every case. *)
Theorem hash2_degenerate {V : Type} (self : DoubleKeyTable V) (char : ascii)
    (key : string) :
  hash2 self (String char key) None = Raise AttributeError /\
  (forall s : LinearProbeTable.t V,
     LinearProbeTable.table_size s <= 1 ->
     hash2 self (String char key) (Some s) = Raise ZeroDivisionError) /\
  (forall sub_table, hash2 self "" sub_table = Ok 0).
Proof.
  split; [reflexivity |]. split; [| reflexivity].
  intros s Hcap. unfold hash2, sub_table_size. simpl.
  pose proof (Nat2Z.is_nonneg (length (LinearProbeTable.array s))) as Hnn.
  unfold LinearProbeTable.table_size in *.
  destruct (Z.of_nat (length (LinearProbeTable.array s)) =? 0) eqn:H0;
    simpl; [reflexivity |].
  apply Z.eqb_neq in H0.
  destruct (Z.of_nat (length (LinearProbeTable.array s)) - 1 =? 0) eqn:H1;
    simpl; [reflexivity |].
  apply Z.eqb_neq in H1. lia.
Qed.

Lemma hash2_degenerate_witness :
  hash2 table_1 "b" (Some (LinearProbeTable.new 1)) = Raise ZeroDivisionError.
Proof.
  destruct (hash2_degenerate table_1 "b"%char "") as [_ [Hsmall _]].
  apply Hsmall. vm_compute. discriminate.
Defined.

(** ** What the constructor builds *)

Section InitBuilds.

Context {V : Type}.
Variable sizes : list Z.
Variable internal_sizes : option (list Z).

Lemma init_body_inner (tbl : ArrayR.t (LinearProbeTable.t V)) (i : nat) :
  init_body sizes internal_sizes tbl i
  = (x <- list_getitem (default sizes internal_sizes) i ;;
     ArrayR.setitem tbl (Z.of_nat i) (Some (LinearProbeTable.new x))).
Proof. unfold init_body. by destruct internal_sizes. Qed.

Lemma init_body_ok_inner (tbl tbl' : ArrayR.t (LinearProbeTable.t V))
    (i : nat) :
  init_body sizes internal_sizes tbl i = Ok tbl' ->
  (i < length (default sizes internal_sizes))%nat.
Proof using Type.
  rewrite init_body_inner. unfold list_getitem.
  destruct (default sizes internal_sizes !! i) eqn:Hl; [| discriminate].
  intros _. by eapply lookup_lt_Some.
Qed.

Lemma for_each_init_ok_inner (l : list nat)
    (tbl tbl' : ArrayR.t (LinearProbeTable.t V)) :
  for_each (init_body sizes internal_sizes) tbl l = Ok tbl' ->
  Forall (fun i => (i < length (default sizes internal_sizes))%nat) l.
Proof using Type.
  revert tbl. induction l as [| i l IH]; intros tbl; simpl; [constructor |].
  destruct (init_body sizes internal_sizes tbl i) as [tbl1 | e] eqn:Hb;
    simpl; [| discriminate].
  intros Hrest. constructor; [by eapply init_body_ok_inner | by eapply IH].
Qed.

(** The loop fills the slots it visits, one after the other. *)
Lemma for_each_init_fill (m a c : nat)
    (pre : list (option (LinearProbeTable.t V))) :
  length pre = a -> (a + m <= c)%nat ->
  (a + m <= length (default sizes internal_sizes))%nat ->
  for_each (init_body sizes internal_sizes)
    (pre ++ replicate (c - a) None) (seq a m)
  = Ok (pre
        ++ ((fun x => Some (LinearProbeTable.new x))
              <$> take m (drop a (default sizes internal_sizes)))
        ++ replicate (c - a - m) None).
Proof using Type.
  revert a pre. induction m as [| m IH]; intros a pre Hpre Hc Hin; simpl.
  - by rewrite Nat.sub_0_r.
  - rewrite init_body_inner. unfold list_getitem.
    destruct (lookup_lt_is_Some_2 (default sizes internal_sizes) a
                ltac:(lia)) as [x Hx].
    rewrite Hx. cbn [bind]. unfold ArrayR.setitem, ArrayR.len, ArrayR.t.
    rewrite length_app, length_replicate, Nat2Z.id.
    destruct ((0 <=? Z.of_nat a)
              && (Z.of_nat a <? Z.of_nat (length pre + (c - a)))) eqn:Hr.
    2: { apply andb_false_iff in Hr as [Hr | Hr];
         [apply Z.leb_gt in Hr | apply Z.ltb_ge in Hr]; lia. }
    cbn [bind].
    replace (c - a)%nat with (S (c - S a)) by lia.
    rewrite insert_app_r_alt by lia.
    replace (a - length pre)%nat with 0%nat by lia. simpl.
    specialize (IH (S a) (pre ++ [Some (LinearProbeTable.new x)])).
    rewrite <- (app_assoc pre [_]) in IH. simpl in IH.
    unfold ArrayR.t in *.
    rewrite IH; [| rewrite length_app; simpl; lia | lia | lia].
    rewrite (drop_S _ _ _ Hx). simpl.
    by rewrite <- app_assoc.
Qed.

End InitBuilds.

(** The table described by a size sequence, the inner sizes and the
    capacity of the outer array. *)
Lemma init_builds {V : Type} (sizes internal_sizes : option (list Z))
    (first : Z) (rest : list Z) :
  default TABLE_SIZES_default sizes = first :: rest ->
  Z.of_nat (length (first :: rest)) <= first ->
  (length (first :: rest)
   <= length (default (first :: rest) internal_sizes))%nat ->
  @__init__ V sizes internal_sizes
  = Ok (mkDoubleKeyTable (first :: rest) 0%nat
          (((fun x => Some (LinearProbeTable.new x))
              <$> take (length (first :: rest))
                    (default (first :: rest) internal_sizes))
           ++ replicate (Z.to_nat first - length (first :: rest)) None)
          0 0%Q).
Proof.
  intros Hsizes Hcap Hinner. unfold __init__. rewrite Hsizes.
  change (list_getitem (first :: rest) 0) with (Ok first). cbn [bind].
  pose proof (for_each_init_fill (V:=V) (first :: rest) internal_sizes
                (length (first :: rest)) 0 (Z.to_nat first) []
                eq_refl ltac:(simpl in *; lia) ltac:(simpl in *; lia))
    as Hfill.
  rewrite Nat.sub_0_r in Hfill. unfold ArrayR.new.
  cbn [app drop] in Hfill. rewrite Hfill. reflexivity.
Qed.

Lemma init_ok_inv {V : Type} (sizes internal_sizes : option (list Z))
    (self : DoubleKeyTable V) :
  __init__ sizes internal_sizes = Ok self ->
  exists first rest,
    default TABLE_SIZES_default sizes = first :: rest /\
    Z.of_nat (length (first :: rest)) <= first /\
    (length (first :: rest)
     <= length (default (first :: rest) internal_sizes))%nat.
Proof.
  unfold __init__.
  destruct (default TABLE_SIZES_default sizes) as [| first rest] eqn:Hsizes;
    [discriminate |].
  change (list_getitem (first :: rest) 0) with (Ok first). cbn [bind].
  destruct (for_each _ _ _) as [tbl | e] eqn:Hloop; [| discriminate].
  intros _. exists first, rest. split; [reflexivity |].
  pose proof (for_each_init_ok _ _ _ _ _ Hloop) as [Hrange _].
  pose proof (for_each_init_ok_inner _ _ _ _ _ Hloop) as Hinner.
  rewrite Forall_forall in Hrange, Hinner.
  assert (Hin : length rest ∈ seq 0 (length (first :: rest))).
  { apply elem_of_seq. simpl. lia. }
  specialize (Hrange _ Hin). specialize (Hinner _ Hin).
  unfold ArrayR.new in Hrange. rewrite length_replicate in Hrange.
  simpl in *. split; lia.
Qed.

(** X8: what the constructor builds.  For a size sequence no longer than
    its first element, with inner sizes that are absent or at least as
    many, the table has that sequence as [TABLE_SIZES], index 0, no entry,
    and an outer array of as many slots as the first size: slot [i] holds a
    fresh inner table of the [i]-th inner size for every position [i] of
    the sequence, and the slots after them hold [None]. *)
Theorem init_builds_table {V : Type} (sizes internal_sizes : option (list Z))
    (first : Z) (rest : list Z) :
  default TABLE_SIZES_default sizes = first :: rest ->
  Z.of_nat (length (first :: rest)) <= first ->
  (length (first :: rest)
   <= length (default (first :: rest) internal_sizes))%nat ->
  @__init__ V sizes internal_sizes
  = Ok (mkDoubleKeyTable (first :: rest) 0%nat
          (((fun x => Some (LinearProbeTable.new x))
              <$> take (length (first :: rest))
                    (default (first :: rest) internal_sizes))
           ++ replicate (Z.to_nat first - length (first :: rest)) None)
          0 0%Q).
Proof. apply init_builds. Qed.

Lemma init_builds_table_witness :
  @__init__ Z (Some [3; 7]) (Some [11; 13; 17])
  = Ok (mkDoubleKeyTable [3; 7] 0%nat
          (((fun x => Some (LinearProbeTable.new x))
              <$> take (length [3; 7]) (default [3; 7] (Some [11; 13; 17])))
           ++ replicate (Z.to_nat 3 - length [3; 7]) None)
          0 0%Q).
Proof.
  apply (init_builds_table (Some [3; 7]) (Some [11; 13; 17]) 3 [7]);
    [reflexivity | simpl; lia | simpl; lia].
Defined.

(** X9: when the constructor returns.  It returns a table exactly when the
    size sequence is not empty, is no longer than its first element, and
    the inner sizes, if given, are at least as many; in every other case
    the exception it raises is [IndexError]. *)
Theorem init_returns_iff {V : Type} (sizes internal_sizes : option (list Z)) :
  ((exists self : DoubleKeyTable V, __init__ sizes internal_sizes = Ok self)
   <->
   exists first rest,
     default TABLE_SIZES_default sizes = first :: rest /\
     Z.of_nat (length (first :: rest)) <= first /\
     (length (first :: rest)
      <= length (default (first :: rest) internal_sizes))%nat) /\
  (forall e, @__init__ V sizes internal_sizes = Raise e -> e = IndexError).
Proof.
  split; [split |].
  - intros [self Hinit]. by eapply init_ok_inv.
  - intros [first [rest [Hsizes [Hcap Hinner]]]].
    eexists. by apply init_builds.
  - intros e. unfold __init__.
    destruct (list_getitem _ _) as [capacity | e0] eqn:Hg; cbn [bind].
    + destruct (for_each _ _ _) as [tbl | e0] eqn:Hloop; cbn [bind];
        [discriminate |].
      intros [= <-]. by eapply for_each_init_raises.
    + intros [= <-]. by eapply list_getitem_raises.
Qed.

Lemma init_returns_iff_witness :
  exists self : DoubleKeyTable Z, __init__ (Some [5]) None = Ok self.
Proof.
  destruct (init_returns_iff (V:=Z) (Some [5]) None) as [[_ Hback] _].
  apply Hback. exists 5, [].
  split; [reflexivity | split; [simpl; lia | simpl; lia]].
Defined.

(** ** Reachable tables *)

Lemma reachable_constructed {V : Type} (self : DoubleKeyTable V) :
  reachable self ->
  exists sizes internal_sizes, __init__ sizes internal_sizes = Ok self.
Proof.
  induction 1 as [sizes internal_sizes self Hinit | self key data _ IH
                 | self key _ IH]; simpl; [by eauto | exact IH | exact IH].
Qed.

Lemma reachable_all_fresh {V : Type} (self : DoubleKeyTable V) :
  reachable self -> all_fresh (table self).
Proof.
  intros Hr. apply reachable_constructed in Hr as [sizes [isz Hinit]].
  unfold __init__ in Hinit.
  destruct (list_getitem _ _) as [capacity | e]; simpl in Hinit;
    [| discriminate].
  destruct (for_each _ _ _) as [tbl | e] eqn:Hloop; simpl in Hinit;
    [| discriminate].
  injection Hinit as <-. simpl.
  apply for_each_init_ok in Hloop as [_ Hfresh].
  apply Hfresh, new_all_fresh.
Qed.

(** An inner table without live entry has no occupied slot. *)
Lemma fresh_slot_empty {V : Type} (tbl : ArrayR.t (LinearProbeTable.t V))
    (i h : Z) (s : LinearProbeTable.t V) (x : option (entry V)) :
  all_fresh tbl ->
  ArrayR.getitem tbl i = Ok (Some s) ->
  LinearProbeTable.slot s h = Ok x ->
  x = None.
Proof.
  intros Hfresh Hget Hslot.
  destruct x as [e |]; [exfalso | reflexivity].
  assert (Hs : Some s ∈ tbl).
  { unfold ArrayR.getitem, ArrayR.t in *.
    destruct (_ && _); [| discriminate].
    destruct (tbl !! Z.to_nat i) as [o |] eqn:Hl; [| discriminate].
    injection Hget as ->. apply list_elem_of_lookup. by eexists. }
  unfold all_fresh in Hfresh. rewrite Forall_forall in Hfresh.
  specialize (Hfresh _ Hs s eq_refl).
  unfold LinearProbeTable.live_count in Hfresh.
  assert (Hin : e ∈ omap id (LinearProbeTable.array s)).
  { apply list_elem_of_omap. exists (Some e). split; [| reflexivity].
    apply list_elem_of_lookup. exists (Z.to_nat h). by apply slot_lookup. }
  destruct (omap id (LinearProbeTable.array s)) as [| e0 l];
    [by apply elem_of_nil in Hin | simpl in Hfresh; lia].
Qed.

(** On a table without entries a lookup probe raises in its first pass. *)
Lemma fresh_lookup_raises {V : Type} (self : DoubleKeyTable V)
    (key1 key2 : string) :
  all_fresh (table self) ->
  exists e, _linear_probe 1 self key1 key2 false = Some (Raise e).
Proof.
  intros Hfresh. unfold _linear_probe.
  destruct (hash1 self key1) as [top_index | e]; [| by eexists].
  destruct (ArrayR.getitem (table self) top_index) as [sub_table | e] eqn:Hget;
    [| by eexists].
  simpl. unfold probe_body.
  destruct (hash2 self key2 sub_table) as [h | e]; simpl; [| by eexists].
  destruct sub_table as [s |]; simpl; [| by eexists].
  destruct (LinearProbeTable.slot s h) as [x | e] eqn:Hslot; simpl;
    [| by eexists].
  rewrite (fresh_slot_empty _ _ _ _ _ Hfresh Hget Hslot). simpl.
  by eexists.
Qed.

(** X10: every reachable table is as large as its size sequence says, and
    empty.  Its [size_index] is 0, the outer array has exactly
    [TABLE_SIZES[size_index]] slots, which are at least as many as the
    sizes in the sequence, [num_entries] is 0 and no slot of any inner
    table is occupied. *)
Theorem reachable_shape {V : Type} (self : DoubleKeyTable V) :
  reachable self ->
  size_index self = 0%nat /\
  (exists capacity,
     TABLE_SIZES self !! size_index self = Some capacity /\
     ArrayR.len (table self) = capacity /\
     Z.of_nat (length (TABLE_SIZES self)) <= capacity) /\
  num_entries self = 0 /\
  (forall i h s x,
     ArrayR.getitem (table self) i = Ok (Some s) ->
     LinearProbeTable.slot s h = Ok x -> x = None).
Proof.
  intros Hr. pose proof (reachable_all_fresh self Hr) as Hfresh.
  apply reachable_constructed in Hr as [sizes [isz Hinit]].
  pose proof (init_ok_inv _ _ _ Hinit) as [first [rest [Hs [Hcap Hin]]]].
  rewrite (init_builds sizes isz first rest Hs Hcap Hin) in Hinit.
  injection Hinit as <-. cbn [size_index TABLE_SIZES table num_entries] in *.
  split; [reflexivity |]. split.
  - exists first. split; [reflexivity |]. split; [| exact Hcap].
    unfold ArrayR.len.
    rewrite length_app, length_fmap, length_take, length_replicate.
    change (length (first :: rest)) with (S (length rest)) in *. lia.
  - split; [reflexivity |].
    intros i h s x Hget Hslot. by eapply fresh_slot_empty.
Qed.

Lemma reachable_shape_witness :
  size_index table_5 = 0%nat /\
  (exists capacity,
     TABLE_SIZES table_5 !! size_index table_5 = Some capacity /\
     ArrayR.len (table table_5) = capacity /\
     Z.of_nat (length (TABLE_SIZES table_5)) <= capacity) /\
  num_entries table_5 = 0 /\
  (forall i h s x,
     ArrayR.getitem (table table_5) i = Ok (Some s) ->
     LinearProbeTable.slot s h = Ok x -> x = None).
Proof.
  apply (reachable_shape table_5).
  apply (reach_init (Some [5]) None table_5). reflexivity.
Defined.

(** X11: on a reachable table no lookup succeeds.  For every key pair
    [__getitem__] raises within the first pass through the loop, and so
    [__contains__] ends as well and never returns [True]. *)
Theorem reachable_lookup_raises {V : Type} (self : DoubleKeyTable V)
    (key : string * string) (fuel : nat) :
  reachable self ->
  (exists e, __getitem__ (S fuel) self key = Some (Raise e)) /\
  __contains__ (S fuel) self key <> None /\
  __contains__ (S fuel) self key <> Some (Ok true).
Proof.
  intros Hr. apply reachable_all_fresh in Hr.
  destruct key as [key1 key2].
  destruct (fresh_lookup_raises self key1 key2 Hr) as [e He].
  assert (Hitem : __getitem__ (S fuel) self (key1, key2) = Some (Raise e)).
  { unfold __getitem__. cbn [fst snd].
    by rewrite linear_probe_first_pass, He. }
  split; [by exists e |].
  unfold __contains__. rewrite Hitem. by destruct e.
Qed.

Lemma reachable_lookup_raises_witness :
  (exists e, __getitem__ 1 table_5 ("", "b")%string = Some (Raise e)) /\
  __contains__ 1 table_5 ("", "b")%string <> None /\
  __contains__ 1 table_5 ("", "b")%string <> Some (Ok true).
Proof.
  apply (reachable_lookup_raises table_5 ("", "b")%string 0).
  apply (reach_init (Some [5]) None table_5). reflexivity.
Defined.

(** ** Enumeration *)

(** The exception a call of [keys] or [iter_keys] ends with. *)
Lemma contains_str_raises {V : Type} (fuel : nat) (self : DoubleKeyTable V)
    (k : string) :
  contains_str fuel self k
  = Some (Raise (if (String.length k <? 2)%nat then IndexError
                 else TypeError)).
Proof. destruct k as [| c1 [| c2 k]]; reflexivity. Qed.

(** X12: [keys] never returns a list.  On every table, without a key it
    raises [AttributeError], as the object has no attribute [size]; with a
    key of fewer than two characters it raises [IndexError], and with a
    longer key [TypeError], both from the membership test, so that its own
    [KeyError] is never raised either. *)
Theorem keys_never_returns {V : Type} (fuel : nat) (self : DoubleKeyTable V)
    (key : option string) :
  keys fuel self key
  = Some (KeysRaise
            match key with
            | None => AttributeError
            | Some k =>
                if (String.length k <? 2)%nat then IndexError else TypeError
            end).
Proof.
  destruct key as [k |]; [| reflexivity].
  unfold keys. rewrite contains_str_raises.
  by destruct (String.length k <? 2)%nat.
Qed.

(** X13: [iter_keys] never yields a key.  On every table the generator
    raises when it is first advanced, with the exceptions of [keys]. *)
Theorem iter_keys_yields_nothing {V : Type} (fuel : nat)
    (self : DoubleKeyTable V) (key : option string) :
  iter_keys fuel self key
  = Some ([],
          Raise
            match key with
            | None => AttributeError
            | Some k =>
                if (String.length k <? 2)%nat then IndexError else TypeError
            end).
Proof.
  destruct key as [k |]; [| reflexivity].
  unfold iter_keys. rewrite contains_str_raises.
  by destruct (String.length k <? 2)%nat.
Qed.

(** ** Probing a new table *)

Lemma new_slot_empty {V : Type} (c h : Z) :
  0 <= h < c ->
  LinearProbeTable.slot (@LinearProbeTable.new V c) h = Ok None.
Proof.
  intros Hh. unfold LinearProbeTable.slot, LinearProbeTable.new,
    ArrayR.getitem, ArrayR.len, ArrayR.t. simpl.
  rewrite length_replicate.
  destruct ((0 <=? h) && (h <? Z.of_nat (Z.to_nat c))) eqn:Hr.
  - rewrite lookup_replicate_2 by lia. reflexivity.
  - apply andb_false_iff in Hr as [Hr | Hr];
      [apply Z.leb_gt in Hr | apply Z.ltb_ge in Hr]; lia.
Qed.

Lemma ArrayR_getitem_lookup {A : Type} (a : ArrayR.t A) (i : nat)
    (x : option A) :
  a !! i = Some x -> ArrayR.getitem a (Z.of_nat i) = Ok x.
Proof.
  intros Hl. pose proof (lookup_lt_Some _ _ _ Hl) as Hlt.
  unfold ArrayR.getitem, ArrayR.len, ArrayR.t in *. rewrite Nat2Z.id, Hl.
  destruct ((0 <=? Z.of_nat i) && (Z.of_nat i <? Z.of_nat (length a))) eqn:Hr;
    [reflexivity |].
  apply andb_false_iff in Hr as [Hr | Hr];
    [apply Z.leb_gt in Hr | apply Z.ltb_ge in Hr]; lia.
Qed.

(** X14: where a new table would take a pair.  On the table the
    constructor returns, when the first inner size [c] is at least 2, the
    insert probe for the empty first key and any second key returns outer
    index 0 and the rolling hash of the second key for capacity [c], an
    index inside the inner table; the lookup probe for the same pair raises
    [KeyError]. *)
Theorem new_table_insertion_point {V : Type}
    (sizes internal_sizes : option (list Z)) (self : DoubleKeyTable V)
    (c : Z) (key2 : string) (fuel : nat) :
  __init__ sizes internal_sizes = Ok self ->
  default (default TABLE_SIZES_default sizes) internal_sizes !! 0%nat
  = Some c ->
  2 <= c ->
  _linear_probe (S fuel) self "" key2 true
  = Some (Ok (0, spec_hash c key2)) /\
  0 <= spec_hash c key2 < c /\
  _linear_probe (S fuel) self "" key2 false
  = Some (Raise (KeyError (Some (EmptyString, key2)))).
Proof.
  intros Hinit Hc Hc2.
  pose proof (init_ok_inv _ _ _ Hinit) as [first [rest [Hs [Hcap Hin]]]].
  rewrite (init_builds sizes internal_sizes first rest Hs Hcap Hin) in Hinit.
  injection Hinit as <-. rewrite Hs in Hc.
  destruct (default (first :: rest) internal_sizes) as [| c0 inner] eqn:Hd;
    [discriminate |].
  injection Hc as ->.
  assert (Hsize : LinearProbeTable.table_size (@LinearProbeTable.new V c) = c).
  { unfold LinearProbeTable.table_size, LinearProbeTable.new. simpl.
    rewrite length_replicate. lia. }
  assert (Hh : hash2
                 (mkDoubleKeyTable (first :: rest) 0%nat
                    (((fun x => Some (LinearProbeTable.new x))
                        <$> take (length (first :: rest)) (c :: inner))
                     ++ replicate (Z.to_nat first - length (first :: rest))
                          None) 0 0%Q)
                 key2 (Some (@LinearProbeTable.new V c))
               = Ok (spec_hash c key2)).
  { unfold hash2, sub_table_size, spec_hash. rewrite Hsize.
    by apply hash_loop_int. }
  assert (Hrange : 0 <= spec_hash c key2 < c).
  { unfold spec_hash. apply spec_hash_from_range; lia. }
  assert (Hget : ArrayR.getitem
                   (((fun x => Some (@LinearProbeTable.new V x))
                       <$> take (length (first :: rest)) (c :: inner))
                    ++ replicate (Z.to_nat first - length (first :: rest))
                         None) 0
                 = Ok (Some (LinearProbeTable.new c))).
  { apply (ArrayR_getitem_lookup _ 0%nat). reflexivity. }
  split; [| split; [exact Hrange |]].
  - apply (linear_probe_empty_slot _ "" key2 true 0
             (LinearProbeTable.new c) (spec_hash c key2) fuel);
      [reflexivity | exact Hget | exact Hh | by apply new_slot_empty].
  - apply (linear_probe_empty_slot _ "" key2 false 0
             (LinearProbeTable.new c) (spec_hash c key2) fuel);
      [reflexivity | exact Hget | exact Hh | by apply new_slot_empty].
Qed.

Lemma new_table_insertion_point_witness :
  _linear_probe 1 table_5 "" "hello" true
  = Some (Ok (0, spec_hash 5 "hello")) /\
  0 <= spec_hash 5 "hello" < 5 /\
  _linear_probe 1 table_5 "" "hello" false
  = Some (Raise (KeyError (Some (EmptyString, "hello"%string)))).
Proof.
  apply (new_table_insertion_point (Some [5]) None table_5 5 "hello" 0);
    [reflexivity | reflexivity | lia].
Defined.
